(** * Stock service entry point (apps/stock/src/main.ts)

    A shallow embedding of the bootstrap of the stock service:

<<
    async function bootstrap() {
      console.log('Stock Service Starting...');
      const app = await NestFactory.create(StockModule);
      await app.listen(process.env.port ?? 3000);
    }
    bootstrap();
>>

    JavaScript values are an inductive type, [process.env] is a finite map
    from variable names to strings (case-sensitive names, as on the Linux
    images the services are built for), and the [async] function is a
    computation in a small state-and-rejection monad over a world made of
    the environment and the chronological trace of what the process did.
    The Nest framework is not part of the repository: whether
    [NestFactory.create] and [app.listen] settle by resolving or by
    rejecting is a parameter of every run. The two calls are taken not to
    write [process.env]; the entry point itself never does. *)

From Stdlib Require Import ZArith Ascii String.
From stdpp Require Import base option list gmap strings.

Local Open Scope string_scope.
Local Open Scope Z_scope.

(** ** JavaScript values *)

Module Js.

(** The values the entry point handles: [undefined], [null], numbers
    (only integer literals occur) and strings. *)
Inductive value : Type :=
| Undefined
| Null
| Num (n : Z)
| Str (s : string).

#[global] Instance value_eq_dec : EqDecision value.
Proof. solve_decision. Defined.

(** [v == null] in the sense of the [??] operator. *)
Definition nullish (v : value) : bool :=
  match v with
  | Undefined | Null => true
  | Num _ | Str _ => false
  end.

(** [a ?? b]: the left operand unless it is [undefined] or [null]. *)
Definition coalesce (a b : value) : value :=
  if nullish a then b else a.

(** [typeof v === 'number'] *)
Definition is_number (v : value) : bool :=
  match v with Num _ => true | _ => false end.

(** A property read on [process.env]: the string stored under the name,
    [undefined] when the variable is not set. *)
Definition of_env (o : option string) : value :=
  match o with
  | Some s => Str s
  | None => Undefined
  end.

End Js.

(** ** The world of the process *)

(** What the process does, in the order it does it. *)
Inductive Event : Type :=
| Log (line : string)          (* console.log wrote a line *)
| CreateCall (module : string) (* NestFactory.create was called *)
| ListenCall (port : Js.value) (* app.listen was called with this argument *)
| Bound (port : Js.value).     (* the promise of app.listen resolved *)

#[global] Instance Event_eq_dec : EqDecision Event.
Proof. solve_decision. Defined.

Record World : Type := mkWorld {
  env : gmap string string;    (* process.env *)
  trace : list Event           (* oldest event first *)
}.

Definition emit (e : Event) (w : World) : World :=
  {| env := env w; trace := trace w ++ [e] |}.

(** ** Promises that are awaited *)

(** How an awaited promise settles. *)
Inductive Settled (A : Type) : Type :=
| Fulfilled (a : A)
| Rejected (reason : string).
Arguments Fulfilled {A} a.
Arguments Rejected {A} reason.

(** The body of an [async] function between two [await]s runs to
    completion, so a computation takes a world to a settlement and the
    world it leaves. *)
Definition Async (A : Type) : Type := World → Settled A * World.

#[global] Instance Async_ret : MRet Async :=
  λ A a w, (Fulfilled a, w).

(** [await]: a rejection of the awaited promise is thrown, which ends the
    enclosing [async] function with the same rejection. *)
#[global] Instance Async_bind : MBind Async :=
  λ A B k m w,
    match m w with
    | (Fulfilled a, w') => k a w'
    | (Rejected r, w') => (Rejected r, w')
    end.

(** ** The framework *)

(** How the two framework calls settle in the one run of a fresh process:
    the entry point calls each of them once. The outcome of a call is
    fixed by its argument; what a second call in the same process would
    meet (a port this process has already bound) is not described. *)
Record Framework : Type := mkFramework {
  create_settles : string → Settled unit;
  listen_settles : Js.value → Settled unit
}.

(** The application object returned by [NestFactory.create]. *)
Inductive App : Type := NestApplication (module : string).

Definition StockModule : string := "StockModule".

Definition DEFAULT_PORT : Z := 3000.

Definition STARTUP_LINE : string := "Stock Service Starting...".

Section Bootstrap.

Variable fw : Framework.

Definition console_log (line : string) : Async unit :=
  λ w, (Fulfilled tt, emit (Log line) w).

Definition NestFactory_create (module : string) : Async App :=
  λ w,
    let w' := emit (CreateCall module) w in
    match create_settles fw module with
    | Fulfilled _ => (Fulfilled (NestApplication module), w')
    | Rejected r => (Rejected r, w')
    end.

(** [process.env.<name>] *)
Definition process_env (name : string) : Async Js.value :=
  λ w, (Fulfilled (Js.of_env (env w !! name)), w).

Definition listen (app : App) (port : Js.value) : Async unit :=
  λ w,
    let w' := emit (ListenCall port) w in
    match listen_settles fw port with
    | Fulfilled _ => (Fulfilled tt, emit (Bound port) w')
    | Rejected r => (Rejected r, w')
    end.

(** [process.env.port ?? 3000], the argument of [app.listen]. *)
Definition port_argument : Async Js.value :=
  override ← process_env "port";
  mret (Js.coalesce override (Js.Num DEFAULT_PORT)).

Definition bootstrap : Async unit :=
  console_log STARTUP_LINE;;
  app ← NestFactory_create StockModule;
  port ← port_argument;
  listen app port.

(** The last line of the file, [bootstrap();], in a fresh process whose
    environment is [e]: nothing has happened yet. *)
Definition main (e : gmap string string) : Settled unit * World :=
  bootstrap {| env := e; trace := [] |}.

End Bootstrap.

(** The value of [process.env.port ?? 3000] as a function of the override
    alone; the specification calls it [resolvePort]. *)
Definition resolvePort (environmentOverride : option string) : Js.value :=
  Js.coalesce (Js.of_env environmentOverride) (Js.Num DEFAULT_PORT).

(** ** Observations on a trace *)

Definition log_lines (t : list Event) : list string :=
  omap (λ e, match e with Log l => Some l | _ => None end) t.

Definition listen_calls (t : list Event) : list Js.value :=
  omap (λ e, match e with ListenCall p => Some p | _ => None end) t.

Definition bound_ports (t : list Event) : list Js.value :=
  omap (λ e, match e with Bound p => Some p | _ => None end) t.

(** The port an event carries, if it carries one. *)
Definition port_of_event (e : Event) : option Js.value :=
  match e with
  | ListenCall p | Bound p => Some p
  | Log _ | CreateCall _ => None
  end.

Definition is_log (e : Event) : bool :=
  match e with Log _ => true | _ => false end.

Definition is_bound (e : Event) : bool :=
  match e with Bound _ => true | _ => false end.

(** Every line is logged only once a socket has been bound: scanning the
    trace from the oldest event, no [Log] is met before a [Bound]. *)
Fixpoint logs_follow_bind (bound : bool) (t : list Event) : bool :=
  match t with
  | [] => true
  | e :: t' =>
      (if is_log e then bound else true)
      && logs_follow_bind (bound || is_bound e) t'
  end.

(** ** Vocabulary of the specification

    The specification speaks of override strings that denote a legal TCP
    port. The entry point has no such notion; these definitions only give
    the claims about it a meaning. *)

Definition digit_of (c : ascii) : option Z :=
  let n := Z.of_N (N_of_ascii c) in
  if (48 <=? n) && (n <=? 57) then Some (n - 48) else None.

Fixpoint decimal_go (acc : Z) (s : string) : option Z :=
  match s with
  | EmptyString => Some acc
  | String c s' =>
      match digit_of c with
      | Some d => decimal_go (10 * acc + d) s'
      | None => None
      end
  end.

(** The integer a non-empty string of decimal digits denotes. *)
Definition decimal_value (s : string) : option Z :=
  match s with
  | EmptyString => None
  | _ => decimal_go 0 s
  end.

Definition legal_port (n : Z) : bool := (1 <=? n) && (n <=? 65535).

(** [Some n] when [s] is decimal for an integer [n] of [1, 65535]; [None]
    when [s] is non-numeric or out of range. *)
Definition port_of_string (s : string) : option Z :=
  match decimal_value s with
  | Some n => if legal_port n then Some n else None
  | None => None
  end.

(** The port number a value handed to [listen] denotes. *)
Definition denoted_port (v : Js.value) : option Z :=
  match v with
  | Js.Num n => if legal_port n then Some n else None
  | Js.Str s => port_of_string s
  | Js.Undefined | Js.Null => None
  end.

(** Does the text [sub] occur in [s]? *)
Fixpoint occurs_in (sub s : string) : bool :=
  String.prefix sub s
  || match s with
     | EmptyString => false
     | String _ s' => occurs_in sub s'
     end.

(** A framework whose calls all resolve, and one whose [listen] finds the
    port taken. *)
Definition fw_ok : Framework :=
  {| create_settles := λ _, Fulfilled tt;
     listen_settles := λ _, Fulfilled tt |}.

Definition fw_port_in_use : Framework :=
  {| create_settles := λ _, Fulfilled tt;
     listen_settles := λ _, Rejected "listen EADDRINUSE" |}.

Definition fw_create_fails : Framework :=
  {| create_settles := λ _, Rejected "cannot resolve dependencies";
     listen_settles := λ _, Fulfilled tt |}.

(** Did [NestFactory.create(StockModule)] resolve in runs against [fw]? *)
Definition created (fw : Framework) : bool :=
  match create_settles fw StockModule with
  | Fulfilled _ => true
  | Rejected _ => false
  end.

(** Does [app.listen(p)] resolve, the socket bound, in runs against [fw]? *)
Definition listens (fw : Framework) (p : Js.value) : bool :=
  match listen_settles fw p with
  | Fulfilled _ => true
  | Rejected _ => false
  end.

(** ** The entry point as a script of calls

    Reading [process.env] leaves no mark on the world, so how often and
    when the entry point reads it cannot be told from a run. The script
    keeps it: the calls [bootstrap] makes, in program order, each with the
    continuation that receives its result. *)

Inductive Script (A : Type) : Type :=
| Done (a : A)
| DoLog (line : string) (k : Script A)
| DoCreate (module : string) (k : App → Script A)
| DoReadEnv (name : string) (k : Js.value → Script A)
| DoListen (app : App) (port : Js.value) (k : Script A).
Arguments Done {A} a.
Arguments DoLog {A} line k.
Arguments DoCreate {A} module k.
Arguments DoReadEnv {A} name k.
Arguments DoListen {A} app port k.

(** Lines 5 to 7 of [main.ts]. *)
Definition bootstrap_script : Script unit :=
  DoLog STARTUP_LINE
    (DoCreate StockModule (λ app,
       DoReadEnv "port" (λ override,
         DoListen app (Js.coalesce override (Js.Num DEFAULT_PORT))
           (Done tt)))).

(** Running a script: each call is the primitive of the same name, each
    continuation an [await]. *)
Fixpoint perform (fw : Framework) {A : Type} (s : Script A) : Async A :=
  match s with
  | Done a => mret a
  | DoLog line k => console_log line;; perform fw k
  | DoCreate module k => app ← NestFactory_create fw module; perform fw (k app)
  | DoReadEnv name k => v ← process_env name; perform fw (k v)
  | DoListen app port k => listen fw app port;; perform fw k
  end.

(** One step of a run: an event of the trace, or a read of the
    environment with the value it gave. *)
Inductive Step : Type :=
| Did (ev : Event)
| ReadEnv (name : string) (v : Js.value).

#[global] Instance Step_eq_dec : EqDecision Step.
Proof. solve_decision. Defined.

(** The steps a script takes in the environment [e], reads included; a
    call that rejects is the last step. *)
Fixpoint steps (fw : Framework) (e : gmap string string) {A : Type}
    (s : Script A) : list Step :=
  match s with
  | Done _ => []
  | DoLog line k => Did (Log line) :: steps fw e k
  | DoCreate module k =>
      Did (CreateCall module)
      :: match create_settles fw module with
         | Fulfilled _ => steps fw e (k (NestApplication module))
         | Rejected _ => []
         end
  | DoReadEnv name k =>
      ReadEnv name (Js.of_env (e !! name))
      :: steps fw e (k (Js.of_env (e !! name)))
  | DoListen app port k =>
      Did (ListenCall port)
      :: match listen_settles fw port with
         | Fulfilled _ => Did (Bound port) :: steps fw e k
         | Rejected _ => []
         end
  end.

(** The events among the steps: the reads leave no event. *)
Definition events_of (l : list Step) : list Event :=
  omap (λ st, match st with Did ev => Some ev | ReadEnv _ _ => None end) l.

(** The reads among the steps: which variable, and the value read. *)
Definition reads_of (l : list Step) : list (string * Js.value) :=
  omap (λ st, match st with
              | ReadEnv name v => Some (name, v)
              | Did _ => None
              end) l.

(** * Properties *)

(** ** The shape of every run *)

Lemma resolvePort_cases (o : option string) :
  resolvePort o = match o with
                  | Some s => Js.Str s
                  | None => Js.Num 3000
                  end.
Proof. by destruct o. Qed.

Lemma port_argument_run (w : World) :
  port_argument w = (Fulfilled (resolvePort (env w !! "port")), w).
Proof. reflexivity. Qed.

(** A run is decided by the environment and by how the two framework
    calls settle: three traces are possible. *)
Lemma main_run (fw : Framework) (e : gmap string string) :
  main fw e =
    let p := resolvePort (e !! "port") in
    let t := [Log STARTUP_LINE; CreateCall StockModule] in
    match create_settles fw StockModule with
    | Rejected r => (Rejected r, {| env := e; trace := t |})
    | Fulfilled _ =>
        match listen_settles fw p with
        | Rejected r =>
            (Rejected r, {| env := e; trace := (t ++ [ListenCall p])%list |})
        | Fulfilled _ =>
            (Fulfilled tt,
             {| env := e; trace := (t ++ [ListenCall p; Bound p])%list |})
        end
    end.
Proof.
  unfold main, bootstrap, mbind, Async_bind.
  cbn [console_log]. unfold NestFactory_create.
  destruct (create_settles fw StockModule) as [[]|r]; [|done].
  rewrite port_argument_run. unfold listen. cbn [env emit trace].
  by destruct (listen_settles fw _) as [[]|r'].
Qed.

Lemma main_trace (fw : Framework) (e : gmap string string) :
  trace (main fw e).2 =
    ([Log STARTUP_LINE; CreateCall StockModule]
     ++ (if created fw
         then ListenCall (resolvePort (e !! "port"))
              :: match listen_settles fw (resolvePort (e !! "port")) with
                 | Fulfilled _ => [Bound (resolvePort (e !! "port"))]
                 | Rejected _ => []
                 end
         else []))%list.
Proof.
  rewrite main_run. cbv zeta. unfold created.
  destruct (create_settles fw StockModule) as [[]|r]; [|done].
  by destruct (listen_settles fw _) as [[]|r'].
Qed.

Lemma main_env (fw : Framework) (e : gmap string string) :
  env (main fw e).2 = e.
Proof.
  rewrite main_run. cbv zeta.
  destruct (create_settles fw StockModule) as [[]|r]; [|done].
  by destruct (listen_settles fw _) as [[]|r'].
Qed.

Lemma main_listen_calls (fw : Framework) (e : gmap string string) :
  listen_calls (trace (main fw e).2) =
    if created fw then [resolvePort (e !! "port")] else [].
Proof.
  rewrite main_trace. destruct (created fw); [|done].
  by destruct (listen_settles fw _).
Qed.

Lemma main_log_lines (fw : Framework) (e : gmap string string) :
  log_lines (trace (main fw e).2) = [STARTUP_LINE].
Proof.
  rewrite main_trace. destruct (created fw); [|done].
  by destruct (listen_settles fw _).
Qed.

Lemma main_bound_ports (fw : Framework) (e : gmap string string) :
  bound_ports (trace (main fw e).2) =
    if created fw && listens fw (resolvePort (e !! "port"))
    then [resolvePort (e !! "port")]
    else [].
Proof.
  rewrite main_trace. unfold listens. destruct (created fw); [|done].
  by destruct (listen_settles fw _).
Qed.

(** The promise of [bootstrap] settles as the framework calls do: it is
    rejected with the reason of the first call that rejects. *)
Lemma main_settlement (fw : Framework) (e : gmap string string) :
  (main fw e).1 =
    match create_settles fw StockModule with
    | Rejected r => Rejected r
    | Fulfilled _ =>
        match listen_settles fw (resolvePort (e !! "port")) with
        | Rejected r => Rejected r
        | Fulfilled _ => Fulfilled tt
        end
    end.
Proof.
  rewrite main_run. cbv zeta.
  destruct (create_settles fw StockModule) as [[]|r]; [|done].
  by destruct (listen_settles fw _) as [[]|r'].
Qed.

Lemma port_of_string_range (s : string) (n : Z) :
  port_of_string s = Some n → 1 ≤ n ≤ 65535.
Proof.
  unfold port_of_string, legal_port.
  destruct (decimal_value s) as [m|]; [|done].
  destruct (1 <=? m) eqn:Hlo, (m <=? 65535) eqn:Hhi; simpl; try done.
  intros [= <-]. split; [by apply Z.leb_le | by apply Z.leb_le].
Qed.

(** ** The override is absent *)

(** C4: when the variable [port] is not set, [process.env.port ?? 3000] is
    the default 3000, and 3000 is what [app.listen] is called with. *)
Theorem absent_override_default (fw : Framework) (e : gmap string string) :
  e !! "port" = None →
  resolvePort None = Js.Num 3000 ∧
  resolvePort (e !! "port") = Js.Num 3000 ∧
  listen_calls (trace (main fw e).2) = if created fw then [Js.Num 3000] else [].
Proof.
  intros Habsent. rewrite main_listen_calls, Habsent. done.
Qed.

Lemma absent_override_default_witness :
  resolvePort None = Js.Num 3000 ∧
  resolvePort ((∅ : gmap string string) !! "port") = Js.Num 3000 ∧
  listen_calls (trace (main fw_ok ∅).2) = [Js.Num 3000].
Proof. apply (absent_override_default fw_ok ∅). reflexivity. Defined.

(** ** The override is present *)

(** C9: the default is taken exactly when [port] is not set; every string
    the variable holds, the empty one included, is handed to [app.listen]
    as it is. A [null] left operand of [??] would also give the default. *)
Theorem fallback_exactly_when_absent (fw : Framework) (e : gmap string string) :
  (resolvePort (e !! "port") = Js.Num 3000 ↔ e !! "port" = None) ∧
  resolvePort (e !! "port")
    = match e !! "port" with Some s => Js.Str s | None => Js.Num 3000 end ∧
  Js.coalesce Js.Null (Js.Num 3000) = Js.Num 3000 ∧
  listen_calls (trace (main fw e).2)
    = if created fw
      then [match e !! "port" with Some s => Js.Str s | None => Js.Num 3000 end]
      else [].
Proof.
  rewrite main_listen_calls, resolvePort_cases.
  split_and!; try done.
  destruct (e !! "port"); split; done.
Qed.

Example empty_override_verbatim :
  listen_calls (trace (main fw_ok {[ "port" := "" ]}).2) = [Js.Str ""].
Proof. reflexivity. Qed.

Example padded_override_verbatim :
  listen_calls (trace (main fw_ok {[ "port" := " 3001 " ]}).2)
    = [Js.Str " 3001 "].
Proof. reflexivity. Qed.

(** C1, as the specification states it, fails: the override
    [not-a-number] denotes no legal port, yet it is returned itself and
    the default is not. *)
Lemma invalid_override_not_defaulted :
  let s := "not-a-number" in
  port_of_string s = None ∧
  resolvePort (Some s) = Js.Str s ∧
  resolvePort (Some s) ≠ Js.Num 3000.
Proof. cbv zeta. split_and!; done. Qed.

(** C1 (amended): an override that is non-numeric or out of range is not
    replaced by the default and raises no error: the string itself, which
    denotes no legal port, is the value of the port expression and the
    argument [app.listen] receives. *)
Theorem invalid_override_passed_verbatim
    (fw : Framework) (e : gmap string string) (s : string) :
  e !! "port" = Some s →
  port_of_string s = None →
  port_argument {| env := e; trace := [] |}
    = (Fulfilled (Js.Str s), {| env := e; trace := [] |}) ∧
  denoted_port (resolvePort (e !! "port")) = None ∧
  listen_calls (trace (main fw e).2) = if created fw then [Js.Str s] else [].
Proof.
  intros Hset Hbad.
  rewrite main_listen_calls, port_argument_run. cbn [env].
  rewrite Hset. split_and!; done.
Qed.

Lemma invalid_override_passed_verbatim_witness :
  let e : gmap string string := {[ "port" := "70000" ]} in
  port_argument {| env := e; trace := [] |}
    = (Fulfilled (Js.Str "70000"), {| env := e; trace := [] |}) ∧
  denoted_port (resolvePort (e !! "port")) = None ∧
  listen_calls (trace (main fw_port_in_use e).2) = [Js.Str "70000"].
Proof.
  apply (invalid_override_passed_verbatim fw_port_in_use
           {[ "port" := "70000" ]} "70000"); reflexivity.
Defined.

(** C2, as the specification states it, fails: [3001] denotes the port
    3001, but the value returned for it is the string, not the number. *)
Lemma valid_override_not_a_number :
  let s := "3001" in
  port_of_string s = Some 3001 ∧
  resolvePort (Some s) ≠ Js.Num 3001 ∧
  Js.is_number (resolvePort (Some s)) = false.
Proof. cbv zeta. split_and!; done. Qed.

(** C2 (amended): for an override [s] that is decimal for an integer [n]
    of [1, 65535], the port expression is the string [s] itself, not a
    number; [s] denotes [n], and [s] is the argument [app.listen]
    receives. *)
Theorem valid_override_passed_as_string
    (fw : Framework) (e : gmap string string) (s : string) (n : Z) :
  e !! "port" = Some s →
  port_of_string s = Some n →
  resolvePort (e !! "port") = Js.Str s ∧
  Js.is_number (resolvePort (e !! "port")) = false ∧
  denoted_port (resolvePort (e !! "port")) = Some n ∧
  1 ≤ n ≤ 65535 ∧
  listen_calls (trace (main fw e).2) = if created fw then [Js.Str s] else [].
Proof.
  intros Hset Hport.
  rewrite main_listen_calls, Hset.
  split_and!; try done.
  - by apply port_of_string_range with s.
  - by apply port_of_string_range with s.
Qed.

Lemma valid_override_passed_as_string_witness :
  let e : gmap string string := {[ "port" := "8080" ]} in
  resolvePort (e !! "port") = Js.Str "8080" ∧
  Js.is_number (resolvePort (e !! "port")) = false ∧
  denoted_port (resolvePort (e !! "port")) = Some 8080 ∧
  1 ≤ 8080 ≤ 65535 ∧
  listen_calls (trace (main fw_ok e).2) = [Js.Str "8080"].
Proof.
  apply (valid_override_passed_as_string fw_ok {[ "port" := "8080" ]}
           "8080" 8080); reflexivity.
Defined.

(** ** The name of the variable *)

(** C5, as the specification states it, fails: with [PORT=3001] in the
    environment and every framework call resolving, the socket is bound
    with 3000. *)
Lemma uppercase_PORT_ignored :
  let e : gmap string string := {[ "PORT" := "3001" ]} in
  e !! "PORT" = Some "3001" ∧
  bound_ports (trace (main fw_ok e).2) = [Js.Num 3000] ∧
  denoted_port <$> bound_ports (trace (main fw_ok e).2) = [Some 3000].
Proof. cbv zeta. split_and!; reflexivity. Qed.

(** C5 (amended): the variable consulted is [port], in lower case. With
    [port] set to [3001], [app.listen] receives the string [3001], which
    denotes the port 3001, and that is what is bound when the call
    resolves. A variable named [PORT] is not consulted: setting it to any
    value leaves the run as it was, so with [port] unset the run is the
    one of an empty environment, on the default. *)
Theorem port_variable_is_lowercase
    (fw : Framework) (e : gmap string string) (v : string) :
  e !! "port" = Some "3001" →
  listen_calls (trace (main fw e).2)
    = (if created fw then [Js.Str "3001"] else []) ∧
  bound_ports (trace (main fw e).2)
    = (if created fw && listens fw (Js.Str "3001")
       then [Js.Str "3001"] else []) ∧
  denoted_port (Js.Str "3001") = Some 3001 ∧
  trace (main fw (<["PORT" := v]> e)).2 = trace (main fw e).2 ∧
  trace (main fw (<["PORT" := v]> (delete "port" e))).2
    = trace (main fw ∅).2.
Proof.
  intros Hset.
  rewrite main_listen_calls, main_bound_ports, !main_trace.
  rewrite !lookup_insert_ne by done.
  rewrite lookup_delete_eq, lookup_empty, Hset.
  split_and!; done.
Qed.

Lemma port_variable_is_lowercase_witness :
  let e : gmap string string := {[ "port" := "3001" ]} in
  listen_calls (trace (main fw_ok e).2) = [Js.Str "3001"] ∧
  bound_ports (trace (main fw_ok e).2) = [Js.Str "3001"] ∧
  denoted_port (Js.Str "3001") = Some 3001 ∧
  trace (main fw_ok (<["PORT" := "4000"]> e)).2 = trace (main fw_ok e).2 ∧
  trace (main fw_ok (<["PORT" := "4000"]> (delete "port" e))).2
    = trace (main fw_ok ∅).2.
Proof.
  apply (port_variable_is_lowercase fw_ok {[ "port" := "3001" ]} "4000").
  reflexivity.
Defined.

(** ** The startup line *)

(** C10: every run logs exactly one line, the constant
    [Stock Service Starting...]; the logged lines of two runs are the
    same whatever their environments and however the framework calls
    settle. *)
Theorem one_constant_startup_line
    (fw1 fw2 : Framework) (e1 e2 : gmap string string) :
  log_lines (trace (main fw1 e1).2) = ["Stock Service Starting..."] ∧
  log_lines (trace (main fw1 e1).2) = log_lines (trace (main fw2 e2).2).
Proof. rewrite !main_log_lines. done. Qed.

(** C3, as the specification states it, fails: in the run where every
    call resolves the line is logged before the socket is bound, and in
    the run where the port is taken the line is logged although no socket
    is ever bound; the line does not contain the port. *)
Lemma startup_line_precedes_bind :
  logs_follow_bind false (trace (main fw_ok ∅).2) = false ∧
  trace (main fw_ok ∅).2
    = [Log "Stock Service Starting..."; CreateCall StockModule;
       ListenCall (Js.Num 3000); Bound (Js.Num 3000)] ∧
  log_lines (trace (main fw_port_in_use ∅).2) = ["Stock Service Starting..."] ∧
  bound_ports (trace (main fw_port_in_use ∅).2) = [] ∧
  occurs_in "3000" "Stock Service Starting..." = false.
Proof. split_and!; reflexivity. Qed.

(** C3 (amended): in every run the single startup line is the first thing
    the process does: it is logged before the application is created and
    before [app.listen] is called, hence before any socket is bound, and
    also when creation or binding fails. Its text is the constant
    [Stock Service Starting...], which does not state the port. *)
Theorem startup_line_first (fw : Framework) (e : gmap string string) :
  ∃ rest : list Event,
    trace (main fw e).2
      = Log "Stock Service Starting..." :: CreateCall StockModule :: rest ∧
    log_lines rest = [] ∧
    logs_follow_bind false (trace (main fw e).2) = false.
Proof.
  rewrite main_trace. eexists. split; [reflexivity|].
  destruct (created fw); [|done].
  by destruct (listen_settles fw _).
Qed.

(** ** The port expression *)

(** C7: evaluating [process.env.port ?? 3000] leaves the world as it was,
    no event and no change of the environment, and its value is a
    function of the override alone: in two worlds that agree on [port],
    whatever else differs, the two evaluations give the same value. *)
Theorem port_argument_pure (w1 w2 : World) :
  env w1 !! "port" = env w2 !! "port" →
  (port_argument w1).2 = w1 ∧
  (port_argument w2).2 = w2 ∧
  (port_argument w1).1 = Fulfilled (resolvePort (env w1 !! "port")) ∧
  (port_argument w1).1 = (port_argument w2).1.
Proof.
  intros Hsame. rewrite !port_argument_run. cbn [fst snd].
  rewrite Hsame. done.
Qed.

Lemma port_argument_pure_witness :
  let w1 := {| env := {[ "port" := "3001" ]}; trace := [] |} in
  let w2 := {| env := {[ "port" := "3001"; "HOME" := "/root" ]};
               trace := [Log "earlier"; Bound (Js.Num 80)] |} in
  (port_argument w1).2 = w1 ∧
  (port_argument w2).2 = w2 ∧
  (port_argument w1).1 = Fulfilled (resolvePort (env w1 !! "port")) ∧
  (port_argument w1).1 = (port_argument w2).1.
Proof.
  apply (port_argument_pure
           {| env := {[ "port" := "3001" ]}; trace := [] |}
           {| env := {[ "port" := "3001"; "HOME" := "/root" ]};
              trace := [Log "earlier"; Bound (Js.Num 80)] |}).
  reflexivity.
Defined.

(** ** The script and the run *)

(** Running a script never writes the environment, and the events it
    appends to the trace are the events among its steps. *)
Lemma perform_sound (fw : Framework) {A : Type} (s : Script A) (w : World) :
  env (perform fw s w).2 = env w ∧
  trace (perform fw s w).2 = (trace w ++ events_of (steps fw (env w) s))%list.
Proof.
  revert w.
  induction s as [a|line k IHk|module k IHk|name k IHk|app port k IHk];
    intros w; cbn [perform steps].
  - split; [done|]. cbn. by rewrite (right_id_L [] (++)).
  - unfold mbind, Async_bind. cbn [console_log].
    destruct (IHk (emit (Log line) w)) as [Henv Htrace].
    rewrite Henv, Htrace. cbn [emit env trace].
    split; [done|]. by rewrite <- (assoc_L (++)).
  - unfold mbind, Async_bind, NestFactory_create.
    destruct (create_settles fw module) as [[]|r].
    + destruct (IHk (NestApplication module) (emit (CreateCall module) w))
        as [Henv Htrace].
      rewrite Henv, Htrace. cbn [emit env trace].
      split; [done|]. by rewrite <- (assoc_L (++)).
    + done.
  - unfold mbind, Async_bind. cbn [process_env].
    destruct (IHk (Js.of_env (env w !! name)) w) as [Henv Htrace].
    by rewrite Henv, Htrace.
  - unfold mbind, Async_bind, listen.
    destruct (listen_settles fw port) as [[]|r].
    + destruct (IHk (emit (Bound port) (emit (ListenCall port) w)))
        as [Henv Htrace].
      rewrite Henv, Htrace. cbn [emit env trace].
      split; [done|]. by rewrite <- !(assoc_L (++)).
    + done.
Qed.

(** The script of the entry point runs as [bootstrap] does. *)
Lemma perform_bootstrap_script (fw : Framework) (w : World) :
  perform fw bootstrap_script w = bootstrap fw w.
Proof.
  unfold bootstrap, bootstrap_script. cbn [perform].
  unfold mbind, Async_bind. cbn [console_log]. unfold NestFactory_create.
  destruct (create_settles fw StockModule) as [[]|r]; [|done].
  rewrite port_argument_run. cbn [process_env]. unfold listen.
  by destruct (listen_settles fw _) as [[]|r'].
Qed.

(** C8, as the specification states it, fails: when the application
    cannot be created the port is not resolved at all, no read of the
    environment and no call of [app.listen]; and when it is resolved, that
    is not at the start of the process but as the third step, after the
    startup line and the creation of the application. *)
Lemma port_not_resolved_when_creation_fails :
  let e : gmap string string := {[ "port" := "3001" ]} in
  reads_of (steps fw_create_fails e bootstrap_script) = [] ∧
  listen_calls (trace (main fw_create_fails e).2) = [] ∧
  steps fw_ok e bootstrap_script
    = [Did (Log "Stock Service Starting..."); Did (CreateCall StockModule);
       ReadEnv "port" (Js.Str "3001"); Did (ListenCall (Js.Str "3001"));
       Did (Bound (Js.Str "3001"))].
Proof. cbv zeta. split_and!; reflexivity. Qed.

(** C8 (amended): the port is resolved at most once in a run, and not at
    the start of the process but after [NestFactory.create] has resolved.
    When creation rejects, the environment is never read and [app.listen]
    is never called. When it resolves, [process.env.port] is read exactly
    once, after the startup line and the creation call and before the one
    call of [app.listen]; the value is the override if it is set and 3000
    otherwise; it is the argument of that call, and every later event
    carries it. The script runs as [bootstrap] does, its events are the
    trace of the run, and the run leaves the environment as it found it. *)
Theorem port_resolved_once_after_create
    (fw : Framework) (e : gmap string string) :
  (∀ w : World, perform fw bootstrap_script w = bootstrap fw w) ∧
  steps fw e bootstrap_script
    = Did (Log "Stock Service Starting...")
      :: Did (CreateCall StockModule)
      :: (if created fw
          then ReadEnv "port" (Js.of_env (e !! "port"))
               :: Did (ListenCall (resolvePort (e !! "port")))
               :: (if listens fw (resolvePort (e !! "port"))
                   then [Did (Bound (resolvePort (e !! "port")))]
                   else [])
          else []) ∧
  reads_of (steps fw e bootstrap_script)
    = (if created fw then [("port", Js.of_env (e !! "port"))] else []) ∧
  events_of (steps fw e bootstrap_script) = trace (main fw e).2 ∧
  listen_calls (trace (main fw e).2)
    = (if created fw then [resolvePort (e !! "port")] else []) ∧
  resolvePort (e !! "port")
    = match e !! "port" with Some s => Js.Str s | None => Js.Num 3000 end ∧
  Forall (λ ev, port_of_event ev = None
                ∨ port_of_event ev = Some (resolvePort (e !! "port")))
         (trace (main fw e).2) ∧
  env (main fw e).2 = e.
Proof.
  assert (Hsteps :
    steps fw e bootstrap_script
      = Did (Log "Stock Service Starting...")
        :: Did (CreateCall StockModule)
        :: (if created fw
            then ReadEnv "port" (Js.of_env (e !! "port"))
                 :: Did (ListenCall (resolvePort (e !! "port")))
                 :: (if listens fw (resolvePort (e !! "port"))
                     then [Did (Bound (resolvePort (e !! "port")))]
                     else [])
            else [])).
  { unfold bootstrap_script, created, listens. cbn [steps].
    destruct (create_settles fw StockModule) as [[]|r]; [|done].
    fold (resolvePort (e !! "port")).
    by destruct (listen_settles fw _) as [[]|r']. }
  split_and!.
  - apply perform_bootstrap_script.
  - exact Hsteps.
  - rewrite Hsteps. destruct (created fw); [|done].
    by destruct (listens fw _).
  - unfold main. rewrite <- perform_bootstrap_script.
    by destruct (perform_sound fw bootstrap_script
                   {| env := e; trace := [] |}) as [_ ->].
  - apply main_listen_calls.
  - apply resolvePort_cases.
  - rewrite main_trace.
    destruct (created fw); [|by repeat constructor].
    destruct (listen_settles fw _); repeat constructor; by right.
  - apply main_env.
Qed.

(** When the application cannot be created the port expression is never
    evaluated and [app.listen] is never called. *)
Example creation_fails_no_listen :
  main fw_create_fails {[ "port" := "3001" ]}
    = (Rejected "cannot resolve dependencies",
       {| env := {[ "port" := "3001" ]};
          trace := [Log "Stock Service Starting...";
                    CreateCall "StockModule"] |}).
Proof. reflexivity. Qed.

(** * Further properties of [bootstrap] *)

(** ** Settlement *)

(** X1: [bootstrap] catches nothing and invents no error. Its promise is
    fulfilled exactly when both framework calls resolve, and it is
    rejected with a reason exactly when that is the reason of the first
    call that rejects: creation, or listening after creation resolved. *)
Theorem bootstrap_rejection_propagates
    (fw : Framework) (e : gmap string string) (r : string) :
  ((main fw e).1 = Fulfilled tt
     ↔ created fw = true ∧ listens fw (resolvePort (e !! "port")) = true) ∧
  ((main fw e).1 = Rejected r
     ↔ create_settles fw StockModule = Rejected r
       ∨ (created fw = true
          ∧ listen_settles fw (resolvePort (e !! "port")) = Rejected r)).
Proof.
  rewrite main_settlement. unfold created, listens.
  destruct (create_settles fw StockModule) as [[]|r1].
  - destruct (listen_settles fw _) as [[]|r2]; split; split;
      try (intros [? ?]); try done; try (intros [?|[? ?]]); try done;
      try (intros ?; by right).
  - split; split; try (intros [? ?]); try done;
      try (intros [?|[? ?]]); try done; try (intros ?; by left).
Qed.

(** X2: the promise of [bootstrap] is fulfilled exactly when a socket was
    bound, with the value of the port expression; a rejected bootstrap
    leaves no bound socket behind. *)
Theorem fulfilled_iff_bound (fw : Framework) (e : gmap string string) :
  ((main fw e).1 = Fulfilled tt
     ↔ bound_ports (trace (main fw e).2) = [resolvePort (e !! "port")]) ∧
  ((main fw e).1 ≠ Fulfilled tt
     ↔ bound_ports (trace (main fw e).2) = []).
Proof.
  rewrite main_settlement, main_bound_ports. unfold created, listens.
  destruct (create_settles fw StockModule) as [[]|r1]; cbn [andb].
  - destruct (listen_settles fw _) as [[]|r2]; split; split; try done.
  - split; split; done.
Qed.

(** ** Failure *)

(** X3: when the application cannot be created, the bootstrap stops
    there: it is rejected with the reason creation gave, the port
    expression is not evaluated, [app.listen] is never called and nothing
    is bound; only the startup line and the creation call have happened. *)
Theorem create_failure_stops_bootstrap
    (fw : Framework) (e : gmap string string) (r : string) :
  create_settles fw StockModule = Rejected r →
  main fw e
    = (Rejected r,
       {| env := e;
          trace := [Log "Stock Service Starting..."; CreateCall StockModule] |}) ∧
  listen_calls (trace (main fw e).2) = [] ∧
  bound_ports (trace (main fw e).2) = [].
Proof.
  intros Hfail. rewrite main_run. cbv zeta. rewrite Hfail. done.
Qed.

Lemma create_failure_stops_bootstrap_witness :
  let e : gmap string string := {[ "port" := "3001" ]} in
  main fw_create_fails e
    = (Rejected "cannot resolve dependencies",
       {| env := e;
          trace := [Log "Stock Service Starting..."; CreateCall StockModule] |}) ∧
  listen_calls (trace (main fw_create_fails e).2) = [] ∧
  bound_ports (trace (main fw_create_fails e).2) = [].
Proof.
  apply (create_failure_stops_bootstrap fw_create_fails
           {[ "port" := "3001" ]} "cannot resolve dependencies").
  reflexivity.
Defined.

(** X6: failure only cuts a run short. Whatever the framework does, the
    trace of a run is a beginning of the trace of the run in which every
    call resolves, in the same environment, and it always holds the
    startup line and the creation call. *)
Theorem run_is_prefix_of_successful_run
    (fw : Framework) (e : gmap string string) :
  trace (main fw e).2 `prefix_of` trace (main fw_ok e).2 ∧
  (2 ≤ length (trace (main fw e).2) ≤ 4)%nat.
Proof.
  rewrite !main_trace. change (created fw_ok) with true.
  cbn [listen_settles fw_ok].
  destruct (created fw).
  - destruct (listen_settles fw _).
    + split; [done | cbn; lia].
    + split; [|cbn; lia].
      by exists [Bound (resolvePort (e !! "port"))].
  - split; [|cbn; lia].
    by exists [ListenCall (resolvePort (e !! "port"));
               Bound (resolvePort (e !! "port"))].
Qed.

(** ** What a run depends on *)

(** X4: of the environment, a run reads the variable [port] and nothing
    else: two environments that agree on [port] give the same trace and
    the same settlement, whatever their other variables are. *)
Theorem run_depends_only_on_port
    (fw : Framework) (e1 e2 : gmap string string) :
  e1 !! "port" = e2 !! "port" →
  trace (main fw e1).2 = trace (main fw e2).2 ∧
  (main fw e1).1 = (main fw e2).1.
Proof.
  intros Hsame. rewrite !main_trace, !main_settlement, Hsame. done.
Qed.

Lemma run_depends_only_on_port_witness :
  let e1 : gmap string string := {[ "port" := "8080" ]} in
  let e2 : gmap string string :=
    {[ "port" := "8080"; "PORT" := "9090"; "NODE_ENV" := "production" ]} in
  trace (main fw_port_in_use e1).2 = trace (main fw_port_in_use e2).2 ∧
  (main fw_port_in_use e1).1 = (main fw_port_in_use e2).1.
Proof.
  apply (run_depends_only_on_port fw_port_in_use
           {[ "port" := "8080" ]}
           {[ "port" := "8080"; "PORT" := "9090";
              "NODE_ENV" := "production" ]}).
  reflexivity.
Defined.

(** X5: [app.listen] is never called with [undefined] or [null]: its
    argument is the number 3000 or a string, and it is a number only
    when it is the default. *)
Theorem listen_argument_never_nullish
    (fw : Framework) (e : gmap string string) :
  Forall (λ p, Js.nullish p = false
               ∧ (p = Js.Num 3000 ∨ ∃ s, p = Js.Str s)
               ∧ (if Js.is_number p then e !! "port" = None else
                    e !! "port" ≠ None))
         (listen_calls (trace (main fw e).2)).
Proof.
  rewrite main_listen_calls, resolvePort_cases.
  destruct (created fw); [|constructor].
  constructor; [|constructor].
  destruct (e !! "port") as [s|]; cbn.
  - split_and!; [done | right; by exists s | done].
  - split_and!; [done | by left | done].
Qed.
